(** * The device-cycling state machine of the smart-home demo (main.py)

    The program keeps three named devices in a Python [dict], a "current
    device" and a counter of performed actions.  Its two button handlers,
    [toggleLight] and [setThermostat], both move the current device one
    place round the dictionary's key list, change one device's value when
    the device reached is their own, and count the action.

    The embedding follows main.py statement by statement.  Python values
    are modelled as follows:
    - [str] is [string]; non-ASCII characters are held as their UTF-8
      bytes, so the degree sign is the two bytes 194, 176;
    - [int] is [Z] (unbounded), list positions are [nat];
    - a [dict] of strings is an association list in insertion order,
      because the handlers depend on the order of [keys()];
    - an operation that can raise returns a [result], which is either a
      value or the class of the exception raised.

    The Qt widgets are not part of the state.  The text a handler hands
    to [status_label.animateTextChange] is returned next to the new
    state.  [updateInfoLabels] gives the texts of the two other labels
    and [pulseEffect] the next style sheet of the status label, both as
    functions; when the timers that call them fire is not modelled.
    [center] is the arithmetic [main] uses to place the window. *)

From Stdlib Require Import ZArith List String Ascii Bool Lia.
From Stdlib Require Import DecimalString.
From Stdlib Require DecimalPos.
Import ListNotations.

Local Open Scope string_scope.
Local Open Scope Z_scope.

(** ** The Python operations the handlers use *)

Module Py.

Inductive exn : Type :=
| ValueError
| KeyError
| IndexError
| ZeroDivisionError.

Inductive result (A : Type) : Type :=
| Ok (a : A)
| Raise (e : exn).

Arguments Ok {A} a.
Arguments Raise {A} e.

Definition bind {A B : Type} (m : result A) (k : A -> result B) : result B :=
  match m with
  | Ok a => k a
  | Raise e => Raise e
  end.

(** A [dict] from [str] to [str], oldest key first. *)
Definition dict : Type := list (string * string).

(** [list(d.keys())] *)
Definition keys (d : dict) : list string := map fst d.

(** [d[k]], raising [KeyError] when [k] is absent. *)
Fixpoint getitem (d : dict) (k : string) : result string :=
  match d with
  | [] => Raise KeyError
  | (k', v') :: rest => if String.eqb k' k then Ok v' else getitem rest k
  end.

(** [d[k] = v]: an existing key keeps its place, a new key goes last. *)
Fixpoint setitem (d : dict) (k v : string) : dict :=
  match d with
  | [] => [(k, v)]
  | (k', v') :: rest =>
      if String.eqb k' k then (k', v) :: rest else (k', v') :: setitem rest k v
  end.

(** [l.index(x)]: the first position of [x], [ValueError] when absent. *)
Fixpoint index (l : list string) (x : string) : result nat :=
  match l with
  | [] => Raise ValueError
  | y :: rest =>
      if String.eqb y x then Ok O
      else bind (index rest x) (fun i => Ok (S i))
  end.

(** [l[i]] for a position [i >= 0]. *)
Definition item (l : list string) (i : nat) : result string :=
  match nth_error l i with
  | Some x => Ok x
  | None => Raise IndexError
  end.

(** [a % b] on non-negative operands. *)
Definition mod_ (a b : nat) : result nat :=
  match b with
  | O => Raise ZeroDivisionError
  | _ => Ok (Nat.modulo a b)
  end.

(** [s.replace(old, new)] for a non-empty [old]: occurrences are taken
    from the left and do not overlap.  [skip] counts the characters of a
    matched occurrence that are still to be dropped. *)
Fixpoint replace_from (old new : string) (skip : nat) (s : string) : string :=
  match s with
  | EmptyString => EmptyString
  | String c rest =>
      match skip with
      | S k => replace_from old new k rest
      | O =>
          if String.prefix old s
          then new ++ replace_from old new (Nat.pred (String.length old)) rest
          else String c (replace_from old new O rest)
      end
  end.

(** [s.replace("", new)] puts [new] before every character and at the end. *)
Fixpoint replace_empty (new : string) (s : string) : string :=
  match s with
  | EmptyString => new
  | String c rest => new ++ String c (replace_empty new rest)
  end.

Definition replace (s old new : string) : string :=
  match old with
  | EmptyString => replace_empty new s
  | _ => replace_from old new O s
  end.

(** White space that [int] strips, within ASCII. *)
Definition isspace (c : ascii) : bool :=
  let n := nat_of_ascii c in
  ((9 <=? n) && (n <=? 13) || (28 <=? n) && (n <=? 32))%nat.

Fixpoint lstrip (s : list ascii) : list ascii :=
  match s with
  | c :: rest => if isspace c then lstrip rest else s
  | [] => []
  end.

Definition strip (s : string) : string :=
  string_of_list_ascii
    (rev (lstrip (rev (lstrip (list_ascii_of_string s))))).

Definition digit (c : ascii) : option Z :=
  let n := nat_of_ascii c in
  if ((48 <=? n) && (n <=? 57))%nat then Some (Z.of_nat n - 48) else None.

(** The digits of a decimal literal.  An underscore may stand between two
    digits; [after_digit] tells whether the previous character was a
    digit, so an empty literal and a misplaced underscore are refused. *)
Fixpoint digits (acc : Z) (after_digit : bool) (s : string) : option Z :=
  match s with
  | EmptyString => if after_digit then Some acc else None
  | String c rest =>
      if Ascii.eqb c "_"%char
      then (if after_digit then digits acc false rest else None)
      else match digit c with
           | Some d => digits (10 * acc + d) true rest
           | None => None
           end
  end.

(** [int(s)] for a string: surrounding white space, an optional sign,
    decimal digits.  Digits and white space outside ASCII, which Python
    also accepts, are refused here ([ValueError]); no string the program
    builds contains any. *)
Definition int (s : string) : result Z :=
  let body := strip s in
  let parsed :=
    match body with
    | String "-"%char rest => option_map Z.opp (digits 0 false rest)
    | String "+"%char rest => digits 0 false rest
    | _ => digits 0 false body
    end in
  match parsed with
  | Some n => Ok n
  | None => Raise ValueError
  end.

(** [str(n)], also what an f-string writes for [{n}]. *)
Definition str (n : Z) : string := NilZero.string_of_int (Z.to_int n).

End Py.

Import Py.

Notation "x <- m ;; k" := (bind m (fun x => k))
  (at level 61, m at next level, right associativity).

(** ** The application state and its two handlers *)

(** The fields of [SmartHomeApp] that are not widgets. *)
Record SmartHomeApp : Type := mkApp {
  devices : dict;
  current_device : string;
  action_count : Z
}.

(** [SmartHomeApp.__init__], with [action_count = 0] from [setupUI]. *)
Definition init : SmartHomeApp :=
  {| devices := [ ("Living Room Light", "Off");
                  ("Thermostat", "22°C");
                  ("Security System", "Disarmed") ];
     current_device := "Living Room Light";
     action_count := 0 |}.

(** [f"{self.current_device}: {self.devices[self.current_device]}"], the
    text [setupUI] and both handlers put on the status label. *)
Definition status_text (self : SmartHomeApp) : result string :=
  shown <- getitem (devices self) (current_device self) ;;
  Ok (current_device self ++ ": " ++ shown).

(** The value written by [toggleLight]:
    ["On" if self.devices["Living Room Light"] == "Off" else "Off"]. *)
Definition new_light (old : string) : string :=
  if String.eqb old "Off" then "On" else "Off".

(** The value computed by [setThermostat]:
    [(current_temp + 1) % 30 if current_temp < 30 else 20]. *)
Definition new_temp (current_temp : Z) : Z :=
  if current_temp <? 30 then (current_temp + 1) mod 30 else 20.

(** [SmartHomeApp.toggleLight].  The result is the state after the call
    and the text passed to [status_label.animateTextChange]. *)
Definition toggleLight (self : SmartHomeApp) : result (SmartHomeApp * string) :=
  let device_list := keys (devices self) in
  current_index <- index device_list (current_device self) ;;
  next_index <- mod_ (current_index + 1) (List.length device_list) ;;
  current <- item device_list next_index ;;
  devs <- (if String.eqb current "Living Room Light"
           then
             old <- getitem (devices self) "Living Room Light" ;;
             Ok (setitem (devices self) "Living Room Light" (new_light old))
           else Ok (devices self)) ;;
  let self' := {| devices := devs;
                  current_device := current;
                  action_count := action_count self + 1 |} in
  text <- status_text self' ;;
  Ok (self', text).

(** [SmartHomeApp.setThermostat], with the same result as [toggleLight]. *)
Definition setThermostat (self : SmartHomeApp) : result (SmartHomeApp * string) :=
  let device_list := keys (devices self) in
  current_index <- index device_list (current_device self) ;;
  next_index <- mod_ (current_index + 1) (List.length device_list) ;;
  current <- item device_list next_index ;;
  devs <- (if String.eqb current "Thermostat"
           then
             old <- getitem (devices self) "Thermostat" ;;
             current_temp <- int (replace old "°C" "") ;;
             Ok (setitem (devices self) "Thermostat"
                   (str (new_temp current_temp) ++ "°C"))
           else Ok (devices self)) ;;
  let self' := {| devices := devs;
                  current_device := current;
                  action_count := action_count self + 1 |} in
  text <- status_text self' ;;
  Ok (self', text).

(** The two buttons, and a run of presses. *)
Inductive Action : Type :=
| ToggleLight
| SetThermostat.

Definition handler (a : Action) : SmartHomeApp -> result (SmartHomeApp * string) :=
  match a with
  | ToggleLight => toggleLight
  | SetThermostat => setThermostat
  end.

(** The device an action is meant for. *)
Definition target (a : Action) : string :=
  match a with
  | ToggleLight => "Living Room Light"
  | SetThermostat => "Thermostat"
  end.

Definition press (a : Action) (self : SmartHomeApp) : result SmartHomeApp :=
  r <- handler a self ;; Ok (fst r).

Fixpoint run (acts : list Action) (self : SmartHomeApp) : result SmartHomeApp :=
  match acts with
  | [] => Ok self
  | a :: rest => self' <- press a self ;; run rest self'
  end.

(** The position of the current device in the key list. *)
Definition cursor (self : SmartHomeApp) : result nat :=
  index (keys (devices self)) (current_device self).

(** ** Reachable states in closed form

    Every state the program reaches is fixed by four values: the place of
    the current device, whether the light is on, the temperature and the
    number of presses.  [state_of] rebuilds the state from them and
    [next] follows one press; [handler_state_of] below shows that the
    handlers agree. *)

Record Summary : Type := mkSummary {
  pos : nat;
  lit : bool;
  temp : Z;
  presses : Z
}.

Definition names : list string :=
  ["Living Room Light"; "Thermostat"; "Security System"].

Definition light_tag (b : bool) : string := if b then "On" else "Off".

Definition registry (lv tv sv : string) : dict :=
  [ ("Living Room Light", lv); ("Thermostat", tv); ("Security System", sv) ].

(** The three devices with the given values, the current device at
    place [p] and [c] presses counted. *)
Definition placed (lv tv sv : string) (p : nat) (c : Z) : SmartHomeApp :=
  {| devices := registry lv tv sv;
     current_device := nth p names "";
     action_count := c |}.

Definition state_of (t : Summary) : SmartHomeApp :=
  placed (light_tag (lit t)) (str (temp t) ++ "°C") "Disarmed"
    (pos t) (presses t).

Definition next (a : Action) (t : Summary) : Summary :=
  let p := ((pos t + 1) mod 3)%nat in
  {| pos := p;
     lit := match a, p with
            | ToggleLight, O => negb (lit t)
            | _, _ => lit t
            end;
     temp := match a, p with
             | SetThermostat, 1%nat => new_temp (temp t)
             | _, _ => temp t
             end;
     presses := presses t + 1 |}.

Definition follow (acts : list Action) (t : Summary) : Summary :=
  fold_left (fun t a => next a t) acts t.

Definition good (t : Summary) : Prop :=
  (pos t < 3)%nat /\ 0 <= temp t < 30.

Definition start : Summary :=
  {| pos := 0; lit := false; temp := 22; presses := 0 |}.

(** The number of presses of the button [b] in [acts] that reach the
    device of that button, when the current device is at place [p] of
    the three before the first press. *)
Definition place (b : Action) : nat :=
  match b with
  | ToggleLight => 0
  | SetThermostat => 1
  end.

Definition same_button (a b : Action) : bool :=
  match a, b with
  | ToggleLight, ToggleLight => true
  | SetThermostat, SetThermostat => true
  | _, _ => false
  end.

Fixpoint hits (b : Action) (p : nat) (acts : list Action) : nat :=
  match acts with
  | [] => 0
  | a :: rest =>
      let p' := ((p + 1) mod 3)%nat in
      ((if same_button a b && Nat.eqb p' (place b) then 1 else 0)
       + hits b p' rest)%nat
  end.

(** ** The labels and the window *)

(** [SmartHomeApp.updateInfoLabels]: the texts set on [device_label] and
    on [stats_label]. *)
Definition updateInfoLabels (self : SmartHomeApp) (device : string)
  : string * string :=
  ("Current Device: " ++ device,
   "Actions performed: " ++ str (action_count self)).

(** [sub in s] for two strings. *)
Fixpoint contains (sub s : string) : bool :=
  String.prefix sub s ||
  match s with
  | EmptyString => false
  | String _ rest => contains sub rest
  end.

(** [AnimatedLabel.pulseEffect], as a function from the style sheet the
    label has to the one it is given. *)
Definition pulseEffect (current_style : string) : string :=
  if contains "border: 3px solid" current_style
  then replace current_style "border: 3px solid" "border: 2px solid"
  else replace current_style "border: 2px solid" "border: 3px solid".

(** The style sheet [AnimatedLabel.setupStyle] installs. *)
Definition label_style : string := "
            QLabel {
                color: #2d3748;
                font-size: 28px;
                font-weight: bold;
                padding: 20px;
                background: rgba(255, 255, 255, 0.9);
                border-radius: 15px;
                border: 2px solid rgba(0, 180, 219, 0.3);
                min-height: 80px;
            }
        ".

(** The position computed by [main] to centre the window: [x] and [y]
    from the width and height of the available screen area and of the
    window, with Python's floor division. *)
Definition center (screen_width screen_height widget_width widget_height : Z)
  : Z * Z :=
  ((screen_width - widget_width) / 2, (screen_height - widget_height) / 2).

(** [h not in s], for one character. *)
Fixpoint lacks (h : ascii) (s : string) : bool :=
  match s with
  | EmptyString => true
  | String c rest => negb (Ascii.eqb h c) && lacks h rest
  end.

(** ** Lemmas on the Python operations *)

Section Dict.

Variable d : dict.

Lemma getitem_setitem_other (k k' v : string) :
  k' <> k -> getitem (setitem d k v) k' = getitem d k'.
Proof.
  intros Hne. induction d as [|[k0 v0] rest IH]; simpl.
  - destruct (String.eqb_spec k k'); congruence.
  - destruct (String.eqb_spec k0 k) as [->|Hk]; simpl.
    + destruct (String.eqb_spec k k'); congruence.
    + now rewrite IH.
Qed.


Lemma keys_setitem_present (k v old : string) :
  getitem d k = Ok old -> keys (setitem d k v) = keys d.
Proof.
  induction d as [|[k0 v0] rest IH]; simpl; [discriminate|].
  destruct (String.eqb_spec k0 k) as [->|Hk]; simpl; [reflexivity|].
  intros H. now rewrite IH.
Qed.

End Dict.

Lemma index_nth_error (l : list string) (x : string) (i : nat) :
  index l x = Ok i -> nth_error l i = Some x.
Proof.
  revert i. induction l as [|y rest IH]; simpl; intros i; [discriminate|].
  destruct (String.eqb_spec y x) as [->|Hne].
  - intros [= <-]. reflexivity.
  - destruct (index rest x) as [j|e]; simpl; [|discriminate].
    intros [= <-]. simpl. now apply IH.
Qed.

(** Every temperature below 30 survives being written and read back. *)
Lemma int_str_below_30 (n : Z) :
  0 <= n < 30 -> int (replace (str n ++ "°C") "°C" "") = Ok n.
Proof.
  intros Hn.
  assert (Hk : exists k, n = Z.of_nat k /\ (k < 30)%nat)
    by (exists (Z.to_nat n); lia).
  destruct Hk as (k & -> & Hk).
  do 30 (destruct k as [|k]; [reflexivity|]). lia.
Qed.

(** ** The handlers on a three-device registry *)

Section Registry.

Variables (lv tv sv : string) (c : Z).

Lemma toggleLight_from_light :
  toggleLight (placed lv tv sv 0 c) =
  Ok ({| devices := registry lv tv sv;
         current_device := "Thermostat";
         action_count := c + 1 |}, "Thermostat: " ++ tv).
Proof. reflexivity. Qed.

Lemma toggleLight_from_thermostat :
  toggleLight (placed lv tv sv 1 c) =
  Ok ({| devices := registry lv tv sv;
         current_device := "Security System";
         action_count := c + 1 |}, "Security System: " ++ sv).
Proof. reflexivity. Qed.

Lemma toggleLight_from_security :
  toggleLight (placed lv tv sv 2 c) =
  Ok ({| devices := registry (new_light lv) tv sv;
         current_device := "Living Room Light";
         action_count := c + 1 |}, "Living Room Light: " ++ new_light lv).
Proof. reflexivity. Qed.

Lemma setThermostat_from_light (n : Z) :
  int (replace tv "°C" "") = Ok n ->
  setThermostat (placed lv tv sv 0 c) =
  Ok ({| devices := registry lv (str (new_temp n) ++ "°C") sv;
         current_device := "Thermostat";
         action_count := c + 1 |},
      "Thermostat: " ++ str (new_temp n) ++ "°C").
Proof.
  intros Hn. unfold setThermostat, placed.
  cbn -[int replace str new_temp]. rewrite Hn. reflexivity.
Qed.

Lemma setThermostat_from_thermostat :
  setThermostat (placed lv tv sv 1 c) =
  Ok ({| devices := registry lv tv sv;
         current_device := "Security System";
         action_count := c + 1 |}, "Security System: " ++ sv).
Proof. reflexivity. Qed.

Lemma setThermostat_from_security :
  setThermostat (placed lv tv sv 2 c) =
  Ok ({| devices := registry lv tv sv;
         current_device := "Living Room Light";
         action_count := c + 1 |}, "Living Room Light: " ++ lv).
Proof. reflexivity. Qed.

End Registry.

(** ** The handlers follow [next] *)

Lemma new_temp_below_30 (n : Z) : 0 <= n < 30 -> 0 <= new_temp n < 30.
Proof.
  intros Hn. unfold new_temp.
  destruct (Z.ltb_spec n 30); [|lia].
  apply Z.mod_pos_bound. lia.
Qed.

Lemma good_next (a : Action) (t : Summary) : good t -> good (next a t).
Proof.
  destruct t as [p l n c]. unfold good, next. cbn [pos temp].
  intros [Hp Hn]. split.
  - apply Nat.mod_upper_bound. lia.
  - destruct a; [now destruct ((p + 1) mod 3)%nat|].
    destruct ((p + 1) mod 3)%nat as [|[|q]]; auto using new_temp_below_30.
Qed.

Lemma handler_state_of (a : Action) (t : Summary) :
  good t ->
  exists text, handler a (state_of t) = Ok (state_of (next a t), text).
Proof.
  destruct t as [p l n c]. unfold good. simpl. intros [Hp Hn].
  destruct p as [|[|[|p]]]; [| | |lia]; destruct a.
  - eexists. exact (toggleLight_from_light _ _ _ _).
  - eexists.
    exact (setThermostat_from_light _ _ _ _ _ (int_str_below_30 n Hn)).
  - eexists. exact (toggleLight_from_thermostat _ _ _ _).
  - eexists. exact (setThermostat_from_thermostat _ _ _ _).
  - destruct l; eexists; exact (toggleLight_from_security _ _ _ _).
  - eexists. exact (setThermostat_from_security _ _ _ _).
Qed.

Lemma press_state_of (a : Action) (t : Summary) :
  good t -> press a (state_of t) = Ok (state_of (next a t)).
Proof.
  intros Ht. destruct (handler_state_of a t Ht) as [text H].
  unfold press. now rewrite H.
Qed.

Lemma run_state_of (acts : list Action) :
  forall t, good t ->
  run acts (state_of t) = Ok (state_of (follow acts t)) /\ good (follow acts t).
Proof.
  induction acts as [|a rest IH]; intros t Ht; simpl.
  - now split.
  - rewrite (press_state_of a t Ht). simpl. apply IH. now apply good_next.
Qed.

Lemma good_start : good start.
Proof. unfold good, start. simpl. lia. Qed.

Lemma run_init (acts : list Action) :
  run acts init = Ok (state_of (follow acts start)) /\ good (follow acts start).
Proof. exact (run_state_of acts start good_start). Qed.

Lemma follow_app (acts1 acts2 : list Action) (t : Summary) :
  follow (acts1 ++ acts2) t = follow acts2 (follow acts1 t).
Proof. apply fold_left_app. Qed.

Lemma pos_follow (acts : list Action) :
  forall t, (pos t < 3)%nat ->
  pos (follow acts t) = ((pos t + List.length acts) mod 3)%nat.
Proof.
  induction acts as [|a rest IH]; intros t Ht.
  - cbn [follow fold_left List.length]. rewrite Nat.add_0_r.
    symmetry. now apply Nat.mod_small.
  - change (follow (a :: rest) t) with (follow rest (next a t)).
    rewrite IH by (apply Nat.mod_upper_bound; lia).
    cbn [next pos List.length].
    rewrite Nat.Div0.add_mod_idemp_l. f_equal. lia.
Qed.

Lemma presses_follow (acts : list Action) :
  forall t, presses (follow acts t) = presses t + Z.of_nat (List.length acts).
Proof.
  induction acts as [|a rest IH]; intros t.
  - cbn [follow fold_left List.length]. lia.
  - change (follow (a :: rest) t) with (follow rest (next a t)).
    rewrite IH. cbn [next presses List.length]. lia.
Qed.

Lemma cursor_state_of (t : Summary) :
  (pos t < 3)%nat -> cursor (state_of t) = Ok (pos t).
Proof.
  destruct t as [p l n c]. simpl. intros Hp.
  destruct p as [|[|[|p]]]; [reflexivity..|lia].
Qed.

Lemma keys_state_of (t : Summary) : keys (devices (state_of t)) = names.
Proof. reflexivity. Qed.

Lemma light_state_of (t : Summary) :
  getitem (devices (state_of t)) "Living Room Light" = Ok (light_tag (lit t)).
Proof. reflexivity. Qed.

Lemma thermostat_state_of (t : Summary) :
  getitem (devices (state_of t)) "Thermostat" = Ok (str (temp t) ++ "°C").
Proof. reflexivity. Qed.

Lemma security_state_of (t : Summary) :
  getitem (devices (state_of t)) "Security System" = Ok "Disarmed".
Proof. reflexivity. Qed.

Lemma NoDup_names : NoDup names.
Proof.
  unfold names. repeat constructor; simpl; intuition discriminate.
Qed.

Lemma new_temp_moves (n : Z) : 0 <= n < 30 -> new_temp n <> n.
Proof.
  intros Hn. unfold new_temp.
  destruct (Z.ltb_spec n 30); [|lia].
  destruct (Z.eq_dec n 29) as [->|Hne]; [discriminate|].
  rewrite Z.mod_small; lia.
Qed.

Lemma thermostat_text_inj (n m : Z) :
  0 <= n < 30 -> 0 <= m < 30 -> str n ++ "°C" = str m ++ "°C" -> n = m.
Proof.
  intros Hn Hm E.
  pose proof (int_str_below_30 n Hn) as Pn.
  rewrite E, (int_str_below_30 m Hm) in Pn. congruence.
Qed.

(** A press changes the value under [k] exactly when [k] is the target
    of the button and the device reached is that target. *)
Lemma changed_iff (a : Action) (t : Summary) (k : string) :
  good t ->
  getitem (devices (state_of (next a t))) k <> getitem (devices (state_of t)) k
  <-> k = target a /\ current_device (state_of (next a t)) = target a.
Proof.
  destruct t as [p l n c]. unfold good. cbn [pos temp]. intros [Hp Hn].
  pose proof (new_temp_moves n Hn) as Hmove.
  pose proof (new_temp_below_30 n Hn) as Hnew.
  unfold state_of, placed, registry.
  destruct p as [|[|[|p]]]; [| | |lia]; destruct a;
    cbn [next pos lit temp presses devices current_device target
         Nat.add Nat.modulo Nat.divmod fst snd Nat.sub nth names getitem];
    try (split; [intros H; now contradiction H | intros [_ H]; discriminate H]).
  - destruct (String.eqb_spec "Living Room Light" k) as [<-|];
      [split; [intros H; now contradiction H | intros [H _]; discriminate H]|].
    destruct (String.eqb_spec "Thermostat" k) as [<-|Hk].
    + split; [now split|]. intros _ [= E].
      apply thermostat_text_inj in E; auto.
    + split; [intros H; now contradiction H | intros [H _]; congruence].
  - destruct (String.eqb_spec "Living Room Light" k) as [<-|Hk].
    + split; [now split|]. intros _. destruct l; discriminate.
    + split; [intros H; now contradiction H | intros [H _]; congruence].
Qed.

Lemma follow_three_toggles (t : Summary) :
  pos t = 0%nat ->
  follow (repeat ToggleLight 3) t =
  {| pos := 0; lit := negb (lit t); temp := temp t;
     presses := presses t + 3 |}.
Proof.
  destruct t as [p l n c]. cbn [pos]. intros ->.
  unfold follow, next. simpl. f_equal. lia.
Qed.

Lemma follow_toggle_rounds (k : nat) :
  forall t, pos t = 0%nat ->
  pos (follow (repeat ToggleLight (3 * k)) t) = 0%nat /\
  lit (follow (repeat ToggleLight (3 * k)) t) = xorb (lit t) (Nat.odd k).
Proof.
  induction k as [|k IH]; intros t Ht.
  - simpl. split; [assumption|]. now rewrite xorb_false_r.
  - replace (3 * S k)%nat with (3 + 3 * k)%nat by lia.
    rewrite repeat_app, follow_app, follow_three_toggles by assumption.
    destruct (IH {| pos := 0; lit := negb (lit t); temp := temp t;
                    presses := presses t + 3 |} eq_refl) as [Hp Hl].
    split; [assumption|]. rewrite Hl. cbn [lit].
    rewrite Nat.odd_succ, <- Nat.negb_odd.
    now destruct (lit t), (Nat.odd k).
Qed.

(** ** The claims *)

(** C3.  After any run from the initial state, any further sequence of N
    presses, mixing the two buttons in any order, leaves the current
    device at place (i + N) mod L of the key list, where i is the place
    before the sequence and L the number of devices. *)
Theorem cursor_after_presses (before acts : list Action) :
  exists self self' i,
    run before init = Ok self /\
    run acts self = Ok self' /\
    cursor self = Ok i /\
    cursor self' =
      Ok ((i + List.length acts) mod List.length (keys (devices self)))%nat.
Proof.
  destruct (run_init before) as [Hb Hg].
  destruct (run_state_of acts _ Hg) as [Ha Hg'].
  exists (state_of (follow before start)), 
         (state_of (follow acts (follow before start))),
         (pos (follow before start)).
  repeat split; trivial.
  - apply cursor_state_of, Hg.
  - rewrite cursor_state_of by apply Hg'.
    rewrite pos_follow by apply Hg. reflexivity.
Qed.

(** C4.  The counter is 0 at the start, equals N after any N presses,
    and each further press adds exactly 1 to it. *)
Theorem action_count_after_presses (acts : list Action) (a : Action) :
  exists self self',
    run acts init = Ok self /\
    action_count self = Z.of_nat (List.length acts) /\
    press a self = Ok self' /\
    action_count self' = action_count self + 1.
Proof.
  destruct (run_init acts) as [Hr Hg].
  exists (state_of (follow acts start)), (state_of (next a (follow acts start))).
  repeat split; trivial.
  - cbn [state_of placed action_count]. now rewrite presses_follow.
  - now apply press_state_of.
Qed.

(** C5.  After every sequence of presses the key list of the registry is
    still the initial one: the same names, in the same order, and so the
    same number of them. *)
Theorem registry_names_unchanged (acts : list Action) :
  exists self,
    run acts init = Ok self /\
    keys (devices self) = keys (devices init) /\
    keys (devices self) =
      ["Living Room Light"; "Thermostat"; "Security System"].
Proof.
  destruct (run_init acts) as [Hr _].
  exists (state_of (follow acts start)). now repeat split.
Qed.

(** C7.  After every sequence of presses the current device is a key of
    the registry, the keys are pairwise distinct, the position lookup
    made at the start of a handler succeeds with a place inside the key
    list, and both handlers return normally. *)
Theorem current_device_is_key (acts : list Action) :
  exists self i,
    run acts init = Ok self /\
    In (current_device self) (keys (devices self)) /\
    NoDup (keys (devices self)) /\
    cursor self = Ok i /\
    (i < List.length (keys (devices self)))%nat /\
    forall a, exists self' text, handler a self = Ok (self', text).
Proof.
  destruct (run_init acts) as [Hr Hg].
  exists (state_of (follow acts start)), (pos (follow acts start)).
  pose proof (cursor_state_of _ (proj1 Hg)) as Hc.
  repeat split; trivial.
  - apply index_nth_error in Hc. eapply nth_error_In, Hc.
  - apply NoDup_names.
  - apply Hg.
  - intros a. destruct (handler_state_of a _ Hg) as [text H]. eauto.
Qed.

(** C8.  After every sequence of presses the value of "Security System"
    is still "Disarmed". *)
Theorem security_system_stays_disarmed (acts : list Action) :
  exists self,
    run acts init = Ok self /\
    getitem (devices self) "Security System" = Ok "Disarmed".
Proof.
  destruct (run_init acts) as [Hr _].
  exists (state_of (follow acts start)). now split.
Qed.

(** C10.  After every sequence of presses the value of "Thermostat" is
    the decimal writing of a non-negative integer followed by the degree
    sign and C, and the parse made by setThermostat on it (remove the
    unit, convert to an integer) gives that integer back. *)
Theorem thermostat_value_parses (acts : list Action) :
  exists self n,
    run acts init = Ok self /\
    getitem (devices self) "Thermostat" = Ok (str n ++ "°C") /\
    0 <= n /\
    int (replace (str n ++ "°C") "°C" "") = Ok n.
Proof.
  destruct (run_init acts) as [Hr Hg].
  exists (state_of (follow acts start)), (temp (follow acts start)).
  repeat split; trivial.
  - apply Hg.
  - apply int_str_below_30, Hg.
Qed.

(** C1 (the code departs from the claim).  The thermostat leaves the
    range 20..30: the expression of setThermostat sends 29 to 0, so the
    22nd press of "Set Thermostat" after start-up writes 0 degrees; the
    19th had written 29.  No temperature is ever sent to 30. *)
Theorem thermostat_29_is_followed_by_0 :
  new_temp 29 = 0 /\
  (forall current_temp, new_temp current_temp <> 30) /\
  run (repeat SetThermostat 19) init =
    Ok {| devices := [ ("Living Room Light", "Off");
                       ("Thermostat", "29°C");
                       ("Security System", "Disarmed") ];
          current_device := "Thermostat";
          action_count := 19 |} /\
  setThermostat
    {| devices := [ ("Living Room Light", "Off");
                    ("Thermostat", "29°C");
                    ("Security System", "Disarmed") ];
       current_device := "Living Room Light";
       action_count := 21 |} =
    Ok ({| devices := [ ("Living Room Light", "Off");
                        ("Thermostat", "0°C");
                        ("Security System", "Disarmed") ];
           current_device := "Thermostat";
           action_count := 22 |}, "Thermostat: 0°C") /\
  run (repeat SetThermostat 22) init =
    Ok {| devices := [ ("Living Room Light", "Off");
                       ("Thermostat", "0°C");
                       ("Security System", "Disarmed") ];
          current_device := "Thermostat";
          action_count := 22 |}.
Proof.
  split; [reflexivity|]. split; [|repeat split; reflexivity].
  intros n. unfold new_temp. destruct (Z.ltb_spec n 30); [|lia].
  pose proof (Z.mod_pos_bound (n + 1) 30). lia.
Qed.

(** C2.  From the initial state, with the light first, three presses of
    "Toggle Light" reach the thermostat, then the security system, both
    times with every value as before, and then the light, whose value
    goes from "Off" to "On" while the others stay.  And after any run, a
    press changes the value of a device [k] if and only if [k] is the
    target of the button pressed and is the device reached by the
    press; so at most one value changes per press. *)
Theorem mutation_iff_target_reached :
  (exists s1 s2 s3,
     press ToggleLight init = Ok s1 /\
     press ToggleLight s1 = Ok s2 /\
     press ToggleLight s2 = Ok s3 /\
     current_device s1 = "Thermostat" /\ devices s1 = devices init /\
     current_device s2 = "Security System" /\ devices s2 = devices init /\
     current_device s3 = "Living Room Light" /\
     devices s3 = [ ("Living Room Light", "On");
                    ("Thermostat", "22°C");
                    ("Security System", "Disarmed") ]) /\
  (forall (acts : list Action) (a : Action),
     exists self self',
       run acts init = Ok self /\
       press a self = Ok self' /\
       forall k,
         getitem (devices self') k <> getitem (devices self) k
         <-> k = target a /\ current_device self' = target a).
Proof.
  split.
  - do 3 eexists. repeat split.
  - intros acts a. destruct (run_init acts) as [Hr Hg].
    exists (state_of (follow acts start)),
           (state_of (next a (follow acts start))).
    split; [assumption|]. split; [now apply press_state_of|].
    intros k. now apply changed_iff.
Qed.

(** C6.  After any run the light is "Off" or "On" and the value written
    by toggleLight for it is the other of the two, so writing twice
    gives the value back; a press of "Toggle Light" that reaches the
    light stores that other value, one that reaches another device
    leaves the light as it is.  Pressing "Toggle Light" 3k times from
    the start, which reaches the light k times, leaves it "Off" for even
    k and "On" for odd k. *)
Theorem light_flips_between_off_and_on :
  (forall acts : list Action,
     exists self old self',
       run acts init = Ok self /\
       getitem (devices self) "Living Room Light" = Ok old /\
       (old = "Off" /\ new_light old = "On" \/
        old = "On" /\ new_light old = "Off") /\
       new_light (new_light old) = old /\
       press ToggleLight self = Ok self' /\
       getitem (devices self') "Living Room Light" =
         Ok (if String.eqb (current_device self') "Living Room Light"
             then new_light old else old)) /\
  (forall k : nat,
     exists self,
       run (repeat ToggleLight (3 * k)) init = Ok self /\
       getitem (devices self) "Living Room Light" =
         Ok (if Nat.even k then "Off" else "On")).
Proof.
  split.
  - intros acts. destruct (run_init acts) as [Hr Hg].
    destruct (follow acts start) as [p l n c] eqn:E.
    exists (state_of (mkSummary p l n c)), (light_tag l),
           (state_of (next ToggleLight (mkSummary p l n c))).
    split; [assumption|]. split; [reflexivity|].
    split; [destruct l; auto|]. split; [now destruct l|].
    split; [now apply press_state_of|].
    destruct Hg as [Hp _]. cbn [pos] in Hp.
    destruct p as [|[|[|p]]]; [| | |lia]; destruct l; reflexivity.
  - intros k. destruct (run_init (repeat ToggleLight (3 * k))) as [Hr _].
    eexists. split; [exact Hr|].
    rewrite light_state_of.
    destruct (follow_toggle_rounds k start eq_refl) as [_ ->].
    cbn [start lit xorb]. rewrite <- Nat.negb_even.
    now destruct (Nat.even k).
Qed.

(** C9.  A handler that returns leaves the key list as it was and leaves
    the value under every key other than its own target as it was: for
    toggleLight the values of "Thermostat" and "Security System", for
    setThermostat those of "Living Room Light" and "Security System".
    This holds from every state, reachable or not; that the handlers do
    return from the reachable ones is [current_device_is_key]. *)
Theorem handler_writes_only_its_target
    (a : Action) (self self' : SmartHomeApp) (text : string) :
  handler a self = Ok (self', text) ->
  keys (devices self') = keys (devices self) /\
  forall k, k <> target a ->
    getitem (devices self') k = getitem (devices self) k.
Proof.
  destruct a; cbn [handler target]; [unfold toggleLight|unfold setThermostat];
    destruct (index _ _) as [i|]; cbn [bind]; try discriminate;
    destruct (mod_ _ _) as [j|]; cbn [bind]; try discriminate;
    destruct (item _ _) as [cur|]; cbn [bind]; try discriminate;
    destruct (String.eqb cur _).
  - destruct (getitem (devices self) "Living Room Light") as [old|] eqn:Hold;
      cbn [bind]; try discriminate.
    destruct (status_text _); cbn [bind]; try discriminate.
    intros [= <- _]. cbn [devices]. split.
    + eapply keys_setitem_present, Hold.
    + intros k Hk. now apply getitem_setitem_other.
  - cbn [bind]. destruct (status_text _); cbn [bind]; try discriminate.
    intros [= <- _]. now split.
  - destruct (getitem (devices self) "Thermostat") as [old|] eqn:Hold;
      cbn [bind]; try discriminate.
    destruct (int _) as [n|]; cbn [bind]; try discriminate.
    destruct (status_text _); cbn [bind]; try discriminate.
    intros [= <- _]. cbn [devices]. split.
    + eapply keys_setitem_present, Hold.
    + intros k Hk. now apply getitem_setitem_other.
  - cbn [bind]. destruct (status_text _); cbn [bind]; try discriminate.
    intros [= <- _]. now split.
Qed.

(** The frame property at a press of "Toggle Light" that flips the light. *)
Lemma handler_writes_only_its_target_witness :
  let self := placed "Off" "22°C" "Disarmed" 2 2 in
  let self' := placed "On" "22°C" "Disarmed" 0 3 in
  keys (devices self') = keys (devices self) /\
  forall k, k <> "Living Room Light" ->
    getitem (devices self') k = getitem (devices self) k.
Proof.
  intros self self'.
  apply (handler_writes_only_its_target ToggleLight self self'
           "Living Room Light: On").
  reflexivity.
Defined.

(** ** Further properties: the handlers on any registry *)


Lemma index_lt (l : list string) (x : string) (i : nat) :
  index l x = Ok i -> (i < List.length l)%nat.
Proof.
  intros H. apply index_nth_error in H.
  apply nth_error_Some. congruence.
Qed.

Lemma index_Raise (l : list string) (x : string) (e : exn) :
  index l x = Raise e -> e = ValueError /\ ~ In x l.
Proof.
  induction l as [|y rest IH]; simpl.
  - intros [= <-]. tauto.
  - destruct (String.eqb_spec y x) as [->|Hne]; [discriminate|].
    destruct (index rest x) as [j|e']; simpl; [discriminate|].
    intros [= <-]. destruct (IH eq_refl) as [-> Hn]. tauto.
Qed.

Lemma index_In (l : list string) (x : string) :
  In x l -> exists i, index l x = Ok i.
Proof.
  intros Hin. destruct (index l x) as [i|e] eqn:E; [eauto|].
  apply index_Raise in E. tauto.
Qed.

Lemma index_nth (l : list string) :
  forall j, NoDup l -> (j < List.length l)%nat -> index l (nth j l "") = Ok j.
Proof.
  induction l as [|y rest IH]; intros j Hnd Hj; simpl in Hj; [lia|].
  inversion Hnd as [|y' rest' Hy Hrest]; subst.
  destruct j as [|j]; simpl.
  - now rewrite String.eqb_refl.
  - destruct (String.eqb_spec y (nth j rest "")) as [E|_].
    + exfalso. apply Hy. rewrite E. apply nth_In. lia.
    + rewrite IH by (trivial; lia). reflexivity.
Qed.

(** What a handler that returns has done. *)
Lemma handler_Ok_inv (a : Action) (self self' : SmartHomeApp) (text : string) :
  handler a self = Ok (self', text) ->
  exists i cur,
    cursor self = Ok i /\
    nth_error (keys (devices self))
      ((i + 1) mod List.length (keys (devices self))) = Some cur /\
    current_device self' = cur /\
    action_count self' = action_count self + 1 /\
    status_text self' = Ok text /\
    ((String.eqb cur (target a) = false /\ devices self' = devices self) \/
     (cur = target a /\
      exists old, getitem (devices self) (target a) = Ok old /\
        match a with
        | ToggleLight =>
            devices self' =
              setitem (devices self) "Living Room Light" (new_light old)
        | SetThermostat =>
            exists n, int (replace old "°C" "") = Ok n /\
              devices self' =
                setitem (devices self) "Thermostat"
                  (str (new_temp n) ++ "°C")
        end)).
Proof.
  unfold cursor.
  destruct a; cbn [handler target]; [unfold toggleLight|unfold setThermostat];
    destruct (index _ _) as [i|] eqn:Hi; cbn [bind]; try discriminate;
    (destruct (mod_ _ _) as [j|] eqn:Hj; cbn [bind]; [|discriminate]);
    (assert (j = ((i + 1) mod List.length (keys (devices self)))%nat) as ->
       by (unfold mod_ in Hj; destruct (List.length _); congruence));
    unfold item; destruct (nth_error _ _) as [cur|] eqn:Hcur;
    cbn [bind]; try discriminate;
    (destruct (String.eqb cur _) eqn:Heq;
       [apply String.eqb_eq in Heq; subst cur|]).
  - destruct (getitem (devices self) "Living Room Light") as [old|] eqn:Hold;
      cbn [bind]; try discriminate.
    destruct (status_text _) as [t|] eqn:Ht; cbn [bind]; try discriminate.
    intros [= <- <-]. exists i, "Living Room Light".
    repeat split; trivial. right. eauto.
  - cbn [bind]. destruct (status_text _) as [t|] eqn:Ht; cbn [bind];
      try discriminate.
    intros [= <- <-]. exists i, cur. repeat split; trivial. left.
    now split.
  - destruct (getitem (devices self) "Thermostat") as [old|] eqn:Hold;
      cbn [bind]; try discriminate.
    destruct (int _) as [n|] eqn:Hn; cbn [bind]; try discriminate.
    destruct (status_text _) as [t|] eqn:Ht; cbn [bind]; try discriminate.
    intros [= <- <-]. exists i, "Thermostat".
    repeat split; trivial. right. eauto 6.
  - cbn [bind]. destruct (status_text _) as [t|] eqn:Ht; cbn [bind];
      try discriminate.
    intros [= <- <-]. exists i, cur. repeat split; trivial. left.
    now split.
Qed.

Lemma handler_keys (a : Action) (self self' : SmartHomeApp) (text : string) :
  handler a self = Ok (self', text) ->
  keys (devices self') = keys (devices self).
Proof.
  intros H. apply handler_Ok_inv in H.
  destruct H as (i & cur & _ & _ & _ & _ & _ & [[_ ->]|[_ (old & Hold & H)]]);
    [reflexivity|].
  destruct a.
  - rewrite H. eapply keys_setitem_present, Hold.
  - destruct H as (n & _ & ->). eapply keys_setitem_present, Hold.
Qed.



(** X1.  On any registry with distinct keys, whatever its size and
    names, a handler that returns has moved the current device from
    place i of the key list to place (i + 1) mod (number of keys), has
    kept the key list and has added 1 to the counter. *)
Theorem handler_moves_to_next_key
    (a : Action) (self self' : SmartHomeApp) (text : string) (i : nat) :
  NoDup (keys (devices self)) ->
  cursor self = Ok i ->
  handler a self = Ok (self', text) ->
  keys (devices self') = keys (devices self) /\
  cursor self' = Ok ((i + 1) mod List.length (keys (devices self)))%nat /\
  action_count self' = action_count self + 1.
Proof.
  intros Hnd Hi H. pose proof (handler_keys _ _ _ _ H) as Hk.
  apply handler_Ok_inv in H.
  destruct H as (i' & cur & Hi' & Hcur & Hc & Hn & _).
  assert (i' = i) as -> by congruence.
  repeat split; trivial.
  unfold cursor. rewrite Hk, Hc.
  apply index_lt in Hi.
  rewrite <- (nth_error_nth _ _ "" Hcur).
  apply index_nth; trivial.
  apply Nat.mod_upper_bound. lia.
Qed.

(** A registry of two devices, the thermostat first and out of range. *)
Lemma handler_moves_to_next_key_witness :
  let self := mkApp [("Thermostat", "30°C"); ("Fan", "Low")] "Fan" 7 in
  let self' := mkApp [("Thermostat", "20°C"); ("Fan", "Low")] "Thermostat" 8 in
  keys (devices self') = keys (devices self) /\
  cursor self' = Ok ((1 + 1) mod List.length (keys (devices self)))%nat /\
  action_count self' = action_count self + 1.
Proof.
  intros self self'.
  apply (handler_moves_to_next_key SetThermostat self self'
           "Thermostat: 20°C" 1).
  - repeat constructor; simpl; intuition discriminate.
  - reflexivity.
  - reflexivity.
Defined.







(** ** Further properties: the state after a run, in closed form *)

Lemma new_temp_below (n : Z) : n < 30 -> new_temp n = (n + 1) mod 30.
Proof. intros Hn. unfold new_temp. now destruct (Z.ltb_spec n 30); [|lia]. Qed.

Lemma follow_cons (a : Action) (acts : list Action) (t : Summary) :
  follow (a :: acts) t = follow acts (next a t).
Proof. reflexivity. Qed.

Lemma lit_follow (acts : list Action) :
  forall t, (pos t < 3)%nat ->
  lit (follow acts t) = xorb (lit t) (Nat.odd (hits ToggleLight (pos t) acts)).
Proof.
  induction acts as [|a rest IH]; intros t Ht.
  - cbn [follow fold_left hits Nat.odd]. now rewrite xorb_false_r.
  - rewrite follow_cons, IH by (apply Nat.mod_upper_bound; lia).
    destruct t as [p l n c]. cbn [pos] in Ht.
    destruct p as [|[|[|p]]]; [| | |lia]; destruct a;
      cbn [next pos lit hits same_button place andb Nat.eqb
           Nat.add Nat.modulo Nat.divmod fst snd Nat.sub];
      try reflexivity.
    rewrite Nat.odd_succ, <- Nat.negb_odd.
    now destruct l, (Nat.odd _).
Qed.

Lemma temp_follow (acts : list Action) :
  forall t, (pos t < 3)%nat -> 0 <= temp t < 30 ->
  temp (follow acts t) =
  (temp t + Z.of_nat (hits SetThermostat (pos t) acts)) mod 30.
Proof.
  induction acts as [|a rest IH]; intros t Ht Hn.
  - cbn [follow fold_left hits]. rewrite Z.add_0_r, Z.mod_small; lia.
  - rewrite follow_cons.
    destruct (good_next a t (conj Ht Hn)) as [Ht' Hn'].
    rewrite IH by assumption.
    destruct t as [p l n c]. cbn [pos temp] in Ht, Hn.
    destruct p as [|[|[|p]]]; [| | |lia]; destruct a;
      cbn [next pos temp hits same_button place andb Nat.eqb
           Nat.add Nat.modulo Nat.divmod fst snd Nat.sub];
      try reflexivity.
    rewrite new_temp_below by lia.
    rewrite Zplus_mod_idemp_l. f_equal. lia.
Qed.

Lemma hits_repeat_SetThermostat (n : nat) :
  forall p, (p < 3)%nat ->
  hits SetThermostat p (repeat SetThermostat n) =
  ((n + (p + 2) mod 3) / 3)%nat.
Proof.
  induction n as [|n IH]; intros p Hp.
  - destruct p as [|[|[|p]]]; [reflexivity..|lia].
  - cbn [repeat hits same_button andb place].
    rewrite IH by (apply Nat.mod_upper_bound; lia).
    destruct p as [|[|[|p]]]; [| | |lia];
      cbn [Nat.add Nat.modulo Nat.divmod fst snd Nat.sub Nat.eqb].
    + replace (S (n + 2)) with (n + 0 + 1 * 3)%nat by lia.
      rewrite Nat.div_add by lia. lia.
    + f_equal. lia.
    + f_equal. lia.
Qed.

(** X5.  The state after any sequence of presses from start-up, in closed
    form.  With N the number of presses, h the number of presses of
    "Toggle Light" that reached the light and k the number of presses of
    "Set Thermostat" that reached the thermostat: the current device is
    the one at place N mod 3, the counter is N, the light is "Off" for
    even h and "On" for odd h, the thermostat shows (22 + k) mod 30, and
    the security system is "Disarmed". *)
Theorem state_after_run (acts : list Action) :
  run acts init =
  Ok {| devices :=
          [ ("Living Room Light",
             if Nat.even (hits ToggleLight 0 acts) then "Off" else "On");
            ("Thermostat",
             str ((22 + Z.of_nat (hits SetThermostat 0 acts)) mod 30) ++ "°C");
            ("Security System", "Disarmed") ];
        current_device := nth (List.length acts mod 3) names "";
        action_count := Z.of_nat (List.length acts) |}.
Proof.
  destruct (run_init acts) as [-> _]. f_equal.
  unfold state_of, placed, registry.
  rewrite (lit_follow acts start), (temp_follow acts start),
    (pos_follow acts start), (presses_follow acts start)
    by (cbn [start pos temp]; lia).
  cbn [start pos lit temp presses xorb Nat.add Z.add].
  rewrite <- Nat.negb_even.
  now destruct (Nat.even _).
Qed.

(** X6.  N presses of "Set Thermostat" from start-up reach the thermostat
    (N + 2) / 3 times, rounded down, and leave it at
    (22 + (N + 2) / 3) mod 30 degrees: 23 after the first press, 29
    after the 19th, 0 after the 22nd, and 22 again after the 88th. *)
Theorem thermostat_after_presses (N : nat) :
  exists self,
    run (repeat SetThermostat N) init = Ok self /\
    getitem (devices self) "Thermostat" =
      Ok (str ((22 + Z.of_nat ((N + 2) / 3)) mod 30) ++ "°C").
Proof.
  destruct (run_init (repeat SetThermostat N)) as [-> _].
  eexists. split; [reflexivity|].
  rewrite thermostat_state_of.
  rewrite (temp_follow _ start) by (cbn [start pos temp]; lia).
  rewrite hits_repeat_SetThermostat by (cbn [start pos]; lia).
  reflexivity.
Qed.

(** ** Further properties: writing and reading a temperature *)















(** ** Further properties: the pulse of the label border *)

Lemma prefix_nil (s : string) : String.prefix "" s = true.
Proof. now destruct s. Qed.

Lemma prefix_cons (a b : ascii) (s1 s2 : string) :
  String.prefix (String a s1) (String b s2) =
  Ascii.eqb a b && String.prefix s1 s2.
Proof.
  cbn [String.prefix]. destruct (ascii_dec a b) as [->|Hne].
  - now rewrite Ascii.eqb_refl.
  - apply Ascii.eqb_neq in Hne. now rewrite Hne.
Qed.

Lemma prefix_app (a v : string) : String.prefix a (a ++ v) = true.
Proof.
  induction a as [|c a IH]; [apply prefix_nil|].
  cbn [append]. now rewrite prefix_cons, Ascii.eqb_refl.
Qed.

Lemma prefix_split (a : string) :
  forall s, String.prefix a s = true -> exists v, s = a ++ v.
Proof.
  induction a as [|c a IH]; intros s H; [now exists s|].
  destruct s as [|b s]; [discriminate|].
  rewrite prefix_cons in H. apply andb_true_iff in H as [Hc Hp].
  apply Ascii.eqb_eq in Hc. subst b.
  destruct (IH s Hp) as [v ->]. now exists v.
Qed.

Lemma length_app (u v : string) :
  String.length (u ++ v) = (String.length u + String.length v)%nat.
Proof. induction u as [|c u IH]; cbn; [reflexivity | now rewrite IH]. Qed.

Lemma replace_from_skip (old new u : string) :
  forall v,
  replace_from old new (String.length u) (u ++ v) = replace_from old new 0 v.
Proof. induction u as [|c u IH]; intros v; [reflexivity | apply IH]. Qed.

Lemma replace_hit (a : ascii) (old' new v : string) :
  replace_from (String a old') new 0 (String a old' ++ v) =
  new ++ replace_from (String a old') new 0 v.
Proof.
  change (String a old' ++ v) with (String a (old' ++ v)) at 1.
  cbn [replace_from].
  change (String a (old' ++ v)) with (String a old' ++ v).
  rewrite prefix_app. cbn [String.length Nat.pred].
  now rewrite replace_from_skip.
Qed.

Lemma replace_miss (old new : string) (c : ascii) (rest : string) :
  String.prefix old (String c rest) = false ->
  replace_from old new 0 (String c rest) =
  String c (replace_from old new 0 rest).
Proof. intros H. cbn [replace_from]. now rewrite H. Qed.

Lemma replace_absent (old new : string) :
  forall s, contains old s = false -> replace_from old new 0 s = s.
Proof.
  induction s as [|c rest IH]; [reflexivity|].
  cbn [contains]. intros H. apply orb_false_iff in H as [Hp Hc].
  rewrite replace_miss by assumption. now rewrite IH.
Qed.

Lemma contains_app_r (sub u : string) :
  forall v, contains sub v = true -> contains sub (u ++ v) = true.
Proof.
  induction u as [|c u IH]; intros v H; [assumption|].
  cbn [append contains]. rewrite IH by assumption. apply orb_true_r.
Qed.

(** Two patterns that begin with the same character [h] and do not hold
    it again, as the two border declarations do. *)
Section Border.

Variables (h : ascii) (P' Q' : string).
Hypothesis HP : lacks h P' = true.
Hypothesis HQ : lacks h Q' = true.

Local Abbreviation P := (String h P').
Local Abbreviation Q := (String h Q').

Lemma prefix_replace (T : string) :
  lacks h T = true ->
  forall u, String.prefix T (replace_from P Q 0 u) = String.prefix T u.
Proof.
  induction T as [|t T IH]; intros HT u; [now rewrite !prefix_nil|].
  cbn [lacks] in HT. apply andb_true_iff in HT as [Ht HT].
  apply negb_true_iff in Ht.
  destruct u as [|c u]; [reflexivity|].
  destruct (String.prefix P (String c u)) eqn:E.
  - apply prefix_split in E as [v E]. rewrite E, replace_hit.
    cbn [append]. rewrite !prefix_cons.
    now rewrite (Ascii.eqb_sym t h), Ht.
  - rewrite replace_miss by assumption.
    rewrite !prefix_cons. now rewrite IH.
Qed.

Lemma contains_skip (u : string) :
  lacks h u = true -> forall w, contains P (u ++ w) = contains P w.
Proof.
  induction u as [|c u IH]; intros Hu w; [reflexivity|].
  cbn [lacks] in Hu. apply andb_true_iff in Hu as [Hc Hu].
  apply negb_true_iff in Hc.
  cbn [append contains]. rewrite prefix_cons, Hc. now apply IH.
Qed.

Lemma replace_back :
  forall n s, (String.length s <= n)%nat ->
  contains Q s = false ->
  replace_from Q P 0 (replace_from P Q 0 s) = s.
Proof.
  induction n as [|n IH]; intros [|c rest] Hlen Hc; try reflexivity;
    cbn [String.length] in Hlen; [lia|].
  cbn [contains] in Hc. apply orb_false_iff in Hc as [HpQ HcQ].
  destruct (String.prefix P (String c rest)) eqn:E.
  - apply prefix_split in E as [v E]. rewrite E, !replace_hit.
    injection E as -> ->. rewrite length_app in Hlen.
    rewrite IH; [reflexivity | lia |].
    destruct (contains Q v) eqn:Hv; [|reflexivity].
    now rewrite (contains_app_r Q P' v Hv) in HcQ.
  - rewrite replace_miss by assumption.
    rewrite replace_miss.
    + rewrite IH; [reflexivity | lia | assumption].
    + rewrite prefix_cons, (prefix_replace Q' HQ), <- prefix_cons.
      assumption.
Qed.

Lemma replace_shows :
  forall s, contains P s = true ->
  contains Q (replace_from P Q 0 s) = true.
Proof.
  induction s as [|c rest IH]; intros H; [discriminate|].
  destruct (String.prefix P (String c rest)) eqn:E.
  - apply prefix_split in E as [v E]. rewrite E, replace_hit.
    destruct (Q ++ replace_from P Q 0 v) eqn:Eq; [discriminate|].
    cbn [contains]. now rewrite <- Eq, prefix_app.
  - cbn [contains] in H. rewrite E in H. cbn [orb] in H.
    rewrite replace_miss by assumption.
    cbn [contains]. rewrite IH by assumption. apply orb_true_r.
Qed.

Hypothesis Hne : forall w, String.prefix P' (Q' ++ w) = false.

Lemma replace_removes :
  forall n s, (String.length s <= n)%nat ->
  contains P (replace_from P Q 0 s) = false.
Proof.
  induction n as [|n IH]; intros [|c rest] Hlen; try reflexivity;
    cbn [String.length] in Hlen; [lia|].
  destruct (String.prefix P (String c rest)) eqn:E.
  - apply prefix_split in E as [v E]. rewrite E, replace_hit.
    injection E as -> ->. rewrite length_app in Hlen.
    change (Q ++ ?w) with (String h (Q' ++ w)).
    cbn [contains]. rewrite prefix_cons, Hne, andb_false_r.
    cbn [orb]. rewrite contains_skip by assumption. apply IH. lia.
  - rewrite replace_miss by assumption. cbn [contains].
    rewrite prefix_cons, (prefix_replace P' HP), <- prefix_cons, E.
    cbn [orb]. apply IH. lia.
Qed.

End Border.

Lemma pulseEffect_eq (s : string) :
  pulseEffect s =
  if contains "border: 3px solid" s
  then replace_from "border: 3px solid" "border: 2px solid" 0 s
  else replace_from "border: 2px solid" "border: 3px solid" 0 s.
Proof. reflexivity. Qed.

Lemma thick_to_thin_back (s : string) :
  contains "border: 2px solid" s = false ->
  replace_from "border: 2px solid" "border: 3px solid" 0
    (replace_from "border: 3px solid" "border: 2px solid" 0 s) = s.
Proof.
  apply (replace_back "b" "order: 3px solid" "order: 2px solid"
           eq_refl (String.length s)). lia.
Qed.

Lemma thin_to_thick_back (s : string) :
  contains "border: 3px solid" s = false ->
  replace_from "border: 3px solid" "border: 2px solid" 0
    (replace_from "border: 2px solid" "border: 3px solid" 0 s) = s.
Proof.
  apply (replace_back "b" "order: 2px solid" "order: 3px solid"
           eq_refl (String.length s)). lia.
Qed.

Lemma thick_removed (s : string) :
  contains "border: 3px solid"
    (replace_from "border: 3px solid" "border: 2px solid" 0 s) = false.
Proof.
  apply (replace_removes "b" "order: 3px solid" "order: 2px solid"
           eq_refl eq_refl (fun w => eq_refl) (String.length s)). lia.
Qed.

Lemma thin_removed (s : string) :
  contains "border: 2px solid"
    (replace_from "border: 2px solid" "border: 3px solid" 0 s) = false.
Proof.
  apply (replace_removes "b" "order: 2px solid" "order: 3px solid"
           eq_refl eq_refl (fun w => eq_refl) (String.length s)). lia.
Qed.

Lemma thick_shown (s : string) :
  contains "border: 2px solid" s = true ->
  contains "border: 3px solid"
    (replace_from "border: 2px solid" "border: 3px solid" 0 s) = true.
Proof. apply (replace_shows "b" "order: 2px solid" "order: 3px solid"). Qed.

Lemma thin_shown (s : string) :
  contains "border: 3px solid" s = true ->
  contains "border: 2px solid"
    (replace_from "border: 3px solid" "border: 2px solid" 0 s) = true.
Proof. apply (replace_shows "b" "order: 3px solid" "order: 2px solid"). Qed.

(** X8.  Two pulses give the style sheet back, character for character,
    whenever it does not hold both a 2px and a 3px border declaration:
    the second call of pulseEffect undoes the first. *)
Theorem pulseEffect_twice (current_style : string) :
  contains "border: 2px solid" current_style &&
  contains "border: 3px solid" current_style = false ->
  pulseEffect (pulseEffect current_style) = current_style.
Proof.
  intros H. rewrite (pulseEffect_eq current_style).
  destruct (contains "border: 3px solid" current_style) eqn:H3.
  - rewrite andb_true_r in H.
    rewrite pulseEffect_eq, thick_removed. now apply thick_to_thin_back.
  - destruct (contains "border: 2px solid" current_style) eqn:H2.
    + rewrite pulseEffect_eq, thick_shown by assumption.
      now apply thin_to_thick_back.
    + rewrite (replace_absent _ _ _ H2).
      rewrite pulseEffect_eq, H3. now apply replace_absent.
Qed.

(** The style sheet installed by setupStyle. *)
Lemma pulseEffect_twice_witness :
  pulseEffect (pulseEffect label_style) = label_style.
Proof. apply (pulseEffect_twice label_style). reflexivity. Defined.

(** X9.  On a style sheet that holds a 2px or a 3px border declaration,
    a pulse leaves exactly one of the two kinds: the 3px one if there
    was none before, the 2px one if there was.  So successive pulses
    switch between thick and thin. *)
Theorem pulseEffect_switches (current_style : string) :
  contains "border: 2px solid" current_style ||
  contains "border: 3px solid" current_style = true ->
  contains "border: 3px solid" (pulseEffect current_style) =
    negb (contains "border: 3px solid" current_style) /\
  contains "border: 2px solid" (pulseEffect current_style) =
    contains "border: 3px solid" current_style.
Proof.
  intros H. rewrite pulseEffect_eq.
  destruct (contains "border: 3px solid" current_style) eqn:H3.
  - now rewrite thick_removed, thin_shown.
  - rewrite orb_false_r in H. now rewrite thin_removed, thick_shown.
Qed.

(** The style sheet installed by setupStyle: thin before, thick after. *)
Lemma pulseEffect_switches_witness :
  contains "border: 3px solid" (pulseEffect label_style) =
    negb (contains "border: 3px solid" label_style) /\
  contains "border: 2px solid" (pulseEffect label_style) =
    contains "border: 3px solid" label_style.
Proof. apply (pulseEffect_switches label_style). reflexivity. Defined.

(** ** Further properties: the labels and the window position *)

(** X10.  After any sequence of N presses from start-up, the call of
    updateInfoLabels for the current device writes "Current Device: "
    followed by the name at place N mod 3 of the registry on the device
    label, and "Actions performed: " followed by N in decimal on the
    statistics label. *)
Theorem labels_after_run (acts : list Action) :
  exists self,
    run acts init = Ok self /\
    updateInfoLabels self (current_device self) =
      ("Current Device: " ++ nth (List.length acts mod 3) names "",
       "Actions performed: " ++ str (Z.of_nat (List.length acts))).
Proof.
  destruct (run_init acts) as [Hr Hg].
  eexists. split; [exact Hr|].
  unfold updateInfoLabels, state_of, placed.
  cbn [current_device action_count].
  rewrite (pos_follow acts start), (presses_follow acts start)
    by (cbn [start pos]; lia).
  reflexivity.
Qed.

(** X11.  The position main computes centres the window in each
    direction up to one pixel: the margin left after the window (right
    or bottom) equals the margin before it (left or top) or exceeds it
    by 1.  The position is negative exactly when the window is larger
    than the available area. *)
Theorem center_margins (screen_width screen_height widget_width widget_height : Z) :
  let (x, y) := center screen_width screen_height widget_width widget_height in
  0 <= (screen_width - widget_width - x) - x <= 1 /\
  0 <= (screen_height - widget_height - y) - y <= 1 /\
  (x < 0 <-> screen_width < widget_width) /\
  (y < 0 <-> screen_height < widget_height).
Proof.
  unfold center.
  pose proof (Z.div_mod (screen_width - widget_width) 2 ltac:(lia)).
  pose proof (Z.mod_pos_bound (screen_width - widget_width) 2 ltac:(lia)).
  pose proof (Z.div_mod (screen_height - widget_height) 2 ltac:(lia)).
  pose proof (Z.mod_pos_bound (screen_height - widget_height) 2 ltac:(lia)).
  lia.
Qed.
